(** * RTSP-audio-analyser: the YAMNet conversion scripts

    A shallow embedding of [convert_yamnet.py], [extract_weights.py] and
    [reconvert_to_tfjs.py].  The three scripts are straight-line glue around
    TensorFlow, TensorFlow Hub, the TFJS converter, the file system and the
    shell.  Every call that leaves the script is an explicit [extern]; an
    arbitrary [World] answers each call with a value or with a Python
    exception, and the scripts are written in a small state-and-exception
    monad that records the calls and the file-system effects of the script's
    own statements. *)

From Stdlib Require Import ZArith Ascii String List.
From stdpp Require Import base option list strings gmap.

Local Open Scope string_scope.
Local Open Scope Z_scope.
Local Open Scope list_scope.
Set Warnings "-register-all,-clear-no-such-hyp".

(** ** Python exceptions and results *)

(** [except Exception] catches instances of [Exception] only; a
    [KeyboardInterrupt] or [SystemExit] derives from [BaseException] alone. *)
Inductive exn : Type :=
| Exception (cls msg : string)
| BaseException (cls msg : string).

Definition isinstance_Exception (e : exn) : bool :=
  match e with
  | Exception _ _ => true
  | BaseException _ _ => false
  end.

(** [str(e)], as interpolated by an f-string. *)
Definition str (e : exn) : string :=
  match e with
  | Exception _ msg => msg
  | BaseException _ msg => msg
  end.

Inductive result (A : Type) : Type :=
| Return (a : A)
| Raise (e : exn).
Arguments Return {A} a.
Arguments Raise {A} e.

(** ** Objects handed to [json.dump] *)

(** A Python [dict] keeps insertion order and [json.dump] emits keys in that
    order, so a dict is an association list. *)
Inductive json : Type :=
| JNone
| JInt (n : Z)
| JStr (s : string)
| JList (items : list json)
| JDict (items : list (string * json)).



(** ** TensorFlow data *)

Module DType.
(** A [tf.DType]; two dtypes are the same when their names are. *)
Record t : Type := Build { name : string }.

Definition float32 : t := Build "float32".

Definition eqb (a b : t) : bool := String.eqb (name a) (name b).
End DType.

Module TensorShape.
(** The static shape of a variable: every dimension is known. *)
Record t : Type := Build { as_list : list Z }.
End TensorShape.

Module Var.
(** A [tf.Variable] as the loader reports it. *)
Record t : Type := Build {
  name : string;
  shape : TensorShape.t;
  dtype : DType.t
}.
End Var.

(** A tensor value: its shape, element type and the bit patterns of its
    elements. *)
Record Tensor : Type := {
  tensor_shape : list Z;
  tensor_dtype : DType.t;
  tensor_values : list Z
}.

(** [tf.TensorSpec(shape, dtype)]; [None] is a dimension of any size. *)
Record TensorSpec : Type := {
  spec_shape : list (option Z);
  spec_dtype : DType.t
}.

Definition dim_compatible (d : option Z) (n : Z) : bool :=
  match d with
  | None => true
  | Some m => Z.eqb m n
  end.

Fixpoint shape_compatible (spec : list (option Z)) (shape : list Z) : bool :=
  match spec, shape with
  | [], [] => true
  | d :: spec', n :: shape' => dim_compatible d n && shape_compatible spec' shape'
  | _, _ => false
  end.

Definition is_compatible_with (spec : TensorSpec) (x : Tensor) : bool :=
  shape_compatible (spec_shape spec) (tensor_shape x)
  && DType.eqb (spec_dtype spec) (tensor_dtype x).

Fixpoint signature_accepts (sig : list TensorSpec) (args : list Tensor) : bool :=
  match sig, args with
  | [], [] => true
  | s :: sig', x :: args' => is_compatible_with s x && signature_accepts sig' args'
  | _, _ => false
  end.

(** A [tf.function] with an [input_signature]: calls whose arguments do not
    match the signature are rejected before the Python body runs. *)
Record Function : Type := {
  input_signature : list TensorSpec;
  python_function : list Tensor -> result Tensor
}.

Definition invoke (f : Function) (args : list Tensor) : result Tensor :=
  if signature_accepts (input_signature f) args
  then python_function f args
  else Raise (Exception "ValueError" "Python inputs incompatible with input_signature").

(** The object [hub.load] returns: a callable from a waveform to a tuple of
    tensors. *)
Record HubModel : Type := {
  hub_call : Tensor -> result (list Tensor)
}.

(** The object [hub.KerasLayer] returns. *)
Record KerasLayer : Type := {
  variables : list Var.t
}.

(** The object [tf.saved_model.load] returns; [signatures] is what the
    f-string prints for [loaded.signatures]. *)
Record LoadedModel : Type := {
  signatures : string
}.

(** ** Paths and the file system *)

(** Cut a string at every character that [is_sep] accepts; the pieces may
    be empty. *)
Fixpoint split_where (is_sep : ascii -> bool) (s : string) : list string :=
  match s with
  | EmptyString => [""]
  | String c s' =>
      if is_sep c then "" :: split_where is_sep s'
      else match split_where is_sep s' with
           | w :: ws => String c w :: ws
           | [] => [String c ""]
           end
  end.

(** [s.split(sep)] for a one-character separator. *)
Definition split_on (sep : ascii) (s : string) : list string :=
  split_where (Ascii.eqb sep) s.

Definition is_absolute (s : string) : bool :=
  match s with
  | String c _ => Ascii.eqb c "/"
  | EmptyString => false
  end.

Definition proper_component (w : string) : bool :=
  negb (String.eqb w "") && negb (String.eqb w ".").

(** The directory entries a path walks through: empty components and [.]
    name no entry, and an absolute path starts at the root ["/"]. *)
Definition normpath (s : string) : list string :=
  (if is_absolute s then ["/"] else [])
  ++ List.filter proper_component (split_on "/" s).

(** Every non-empty prefix of a path: the directories [os.makedirs] makes
    sure exist. *)
Fixpoint ancestors_from (done : list string) (rest : list string) : list (list string) :=
  match rest with
  | [] => []
  | w :: rest' => (done ++ [w]) :: ancestors_from (done ++ [w]) rest'
  end.

Definition makedirs_targets (name : string) : list (list string) :=
  ancestors_from [] (normpath name).

(** What a text file holds: the documents [json.dump] wrote into it since it
    was opened with mode ["w"], each with its [indent]. *)
Definition file_content : Type := list (json * Z).

Record filesystem : Type := {
  dirs : gset (list string);
  files : gmap (list string) file_content
}.

(** The file object [open] returns. *)
Record TextIOWrapper : Type := {
  file_name : string;
  file_mode : string
}.

(** ** The wrapper class of [convert_yamnet.py] *)

Module YAMNetWrapper.
Record t : Type := __init__ { yamnet : HubModel }.

(** The body of [call]: unpack the model's result into exactly three
    values and return the first. *)
Definition call_body (self : t) (waveform : Tensor) : result Tensor :=
  match hub_call (yamnet self) waveform with
  | Return [scores; embeddings; specs] => Return scores
  | Return _ => Raise (Exception "ValueError" "wrong number of values to unpack (expected 3)")
  | Raise e => Raise e
  end.

(** [call] as decorated:
    [@tf.function(input_signature=[tf.TensorSpec(shape=[None], dtype=tf.float32)])]. *)
Definition call (self : t) : Function :=
  {| input_signature := [ {| spec_shape := [None]; spec_dtype := DType.float32 |} ];
     python_function := fun args =>
       match args with
       | [waveform] => call_body self waveform
       | _ => Raise (Exception "TypeError" "call() takes 2 positional arguments")
       end |}.
End YAMNetWrapper.

(** ** Calls that leave the scripts *)

Inductive extern : Type :=
| os_makedirs (name : string) (exist_ok : bool)
| hub_load (handle : string)
| hub_KerasLayer (handle : string) (trainable : bool)
| tf_saved_model_save (obj : YAMNetWrapper.t) (export_dir : string) (sigs : Function)
| tf_saved_model_load (export_dir : string)
| tfjs_convert_tf_saved_model (saved_model_dir output_dir : string)
| open_ (file mode : string)
| json_dump (obj : json) (fp : TextIOWrapper) (indent : Z)
| os_system (command : string).

Definition ret_type (c : extern) : Type :=
  match c with
  | os_makedirs _ _ => unit
  | hub_load _ => HubModel
  | hub_KerasLayer _ _ => KerasLayer
  | tf_saved_model_save _ _ _ => unit
  | tf_saved_model_load _ => LoadedModel
  | tfjs_convert_tf_saved_model _ _ => unit
  | open_ _ _ => unit
  | json_dump _ _ _ => unit
  | os_system _ => Z
  end.

(** One entry of the call log: the call and the exception it raised, if
    any. *)
Record event : Type := {
  ev_call : extern;
  ev_raised : option exn
}.

(** The outside world answers every call, knowing the calls made so far. *)
Definition World : Type := forall c : extern, list event -> result (ret_type c).

(** What the interpreter hands to a script. *)
Record process : Type := {
  sys_argv : list string;
  os_environ : list (string * string)
}.

Record state : Type := {
  fs : filesystem;
  log : list event;
  stdout : list string
}.

(** The effect of a call that returned on the file system, for the calls
    that are the script's own file operations.  What the TensorFlow tools
    and the shell command put on disk is opaque to the scripts and is not
    tracked. *)
Definition fs_effect (c : extern) (f : filesystem) : filesystem :=
  match c with
  | os_makedirs name _ =>
      {| dirs := dirs f ∪ list_to_set (makedirs_targets name); files := files f |}
  | open_ file mode =>
      if String.eqb mode "w"
      then {| dirs := dirs f; files := <[normpath file := []]> (files f) |}
      else f
  | json_dump obj fp indent =>
      {| dirs := dirs f;
         files := <[normpath (file_name fp) :=
                     default [] (files f !! normpath (file_name fp)) ++ [(obj, indent)]]>
                  (files f) |}
  | _ => f
  end.

(** ** The script monad *)

Definition M (A : Type) : Type := process -> World -> state -> state * result A.

Definition ret {A} (a : A) : M A := fun _ _ st => (st, Return a).

Definition bind {A B} (m : M A) (k : A -> M B) : M B :=
  fun p w st =>
    match m p w st with
    | (st', Return a) => k a p w st'
    | (st', Raise e) => (st', Raise e)
    end.

Definition raise {A} (e : exn) : M A := fun _ _ st => (st, Raise e).

(** [try: body / except Exception as e: handler e]. *)
Definition try_except_Exception {A} (body : M A) (handler : exn -> M A) : M A :=
  fun p w st =>
    match body p w st with
    | (st', Return a) => (st', Return a)
    | (st', Raise e) =>
        if isinstance_Exception e then handler e p w st' else (st', Raise e)
    end.

(** Make a call: the world answers, the call is logged, and when it returns
    its file-system effect takes place. *)
Definition perform (c : extern) : M (ret_type c) :=
  fun _ w st =>
    match w c (log st) with
    | Return x =>
        ({| fs := fs_effect c (fs st);
            log := log st ++ [ {| ev_call := c; ev_raised := None |} ];
            stdout := stdout st |}, Return x)
    | Raise e =>
        ({| fs := fs st;
            log := log st ++ [ {| ev_call := c; ev_raised := Some e |} ];
            stdout := stdout st |}, Raise e)
    end.

(** [sys.argv] and [os.environ], for a script that reads them. *)
Definition getprocess : M process := fun p _ st => (st, Return p).

Definition print (s : string) : M unit :=
  fun _ _ st =>
    ({| fs := fs st; log := log st; stdout := stdout st ++ [s] |}, Return tt).

#[global] Instance M_ret : MRet M := @ret.
#[global] Instance M_bind : MBind M := fun A B k m => bind m k.

(** [with open(file, mode) as f: body f]. *)
Definition with_open {A} (file mode : string) (body : TextIOWrapper -> M A) : M A :=
  perform (open_ file mode);;
  body {| file_name := file; file_mode := mode |}.

(** ** convert_yamnet.py *)

Definition base_dir : string := "yamnet_conversion".

Definition convert_yamnet : M unit :=
  perform (os_makedirs base_dir true);;
  perform (os_makedirs (base_dir +:+ "/yamnet_tf") true);;
  perform (os_makedirs (base_dir +:+ "/yamnet_tfjs") true);;
  print "Downloading YAMNet model...";;
  yamnet_model ← perform (hub_load "https://tfhub.dev/google/yamnet/1");
  print "Creating wrapped model...";;
  let wrapped_model := YAMNetWrapper.__init__ yamnet_model in
  print "Saving model in SavedModel format...";;
  perform (tf_saved_model_save wrapped_model (base_dir +:+ "/yamnet_tf")
             (YAMNetWrapper.call wrapped_model));;
  print "Loading SavedModel and inspecting signatures...";;
  loaded ← perform (tf_saved_model_load (base_dir +:+ "/yamnet_tf"));
  print ("Signatures: " +:+ signatures loaded);;
  print "Converting to TFJS format...";;
  perform (tfjs_convert_tf_saved_model (base_dir +:+ "/yamnet_tf")
             (base_dir +:+ "/yamnet_tfjs"));;
  print "Conversion complete! Model is in the yamnet_conversion/yamnet_tfjs directory".

(** ** extract_weights.py *)

Definition weight_spec (variable : Var.t) : json :=
  JDict [ ("name", JStr (Var.name variable));
          ("shape", JList (map JInt (TensorShape.as_list (Var.shape variable))));
          ("dtype", JStr (DType.name (Var.dtype variable))) ].

(** The [for] loop appending one dict per variable to [weight_specs]. *)
Fixpoint append_weight_specs (weight_specs : list json) (vars : list Var.t) : list json :=
  match vars with
  | [] => weight_specs
  | variable :: vars' => append_weight_specs (weight_specs ++ [weight_spec variable]) vars'
  end.

Definition extract_weight_specs (model_url output_json_path : string) : M unit :=
  try_except_Exception
    (yamnet_model ← perform (hub_KerasLayer model_url false);
     let weight_specs := append_weight_specs [] (variables yamnet_model) in
     with_open output_json_path "w" (fun f =>
       perform (json_dump (JList weight_specs) f 4));;
     print ("✅ Weight specs saved to: " +:+ output_json_path))
    (fun e => print ("❌ Error during extraction: " +:+ str e)).

Definition MODEL_URL : string := "https://tfhub.dev/google/yamnet/1".
Definition OUTPUT_JSON_PATH : string := "./yamnet_conversion/yamnet_tf/weight_specs.json".

Definition extract_weights_main : M unit :=
  extract_weight_specs MODEL_URL OUTPUT_JSON_PATH.

(** ** reconvert_to_tfjs.py *)

Definition command (saved_model_path tfjs_output_path : string) : list string :=
  [ "tensorflowjs_converter";
    "--input_format=tf_saved_model";
    "--output_format=tfjs_graph_model";
    "--signature_name=serving_default";
    "--saved_model_tags=serve";
    saved_model_path;
    tfjs_output_path ].

Definition reconvert_to_tfjs (saved_model_path tfjs_output_path : string) : M unit :=
  try_except_Exception
    (model ← perform (tf_saved_model_load saved_model_path);
     let command := command saved_model_path tfjs_output_path in
     print ("Running command: " +:+ String.concat " " command);;
     perform (os_system (String.concat " " command));;
     print ("✅ TFJS model (reconverted) saved to: " +:+ tfjs_output_path))
    (fun e =>
       print ("❌ Error during reconversion: " +:+ str e);;
       raise e).

Definition SAVED_MODEL_PATH : string := "./yamnet_conversion/yamnet_tf".
Definition TFJS_OUTPUT_PATH : string := "./yamnet_conversion/yamnet_tfjs_reconverted".

Definition reconvert_to_tfjs_main : M unit :=
  perform (os_makedirs TFJS_OUTPUT_PATH true);;
  reconvert_to_tfjs SAVED_MODEL_PATH TFJS_OUTPUT_PATH.

(** ** The shell behind [os.system] *)

(** [os.system] hands its string to [sh -c].  Of the shell only token
    recognition is modelled, without quoting and without expansions: blanks
    separate words, and an operator character or a newline ends the first
    command. *)
Definition is_blank (c : ascii) : bool :=
  Ascii.eqb c " " || Ascii.eqb c "009".

Definition is_operator (c : ascii) : bool :=
  Ascii.eqb c "|" || Ascii.eqb c "&" || Ascii.eqb c ";" || Ascii.eqb c "("
  || Ascii.eqb c ")" || Ascii.eqb c "<" || Ascii.eqb c ">" || Ascii.eqb c "010".



Definition nonempty (w : string) : bool := negb (String.eqb w "").

(** The argument vector of the first command of a command line. *)
Definition sh_argv (line : string) : list string :=
  List.filter nonempty
    (split_where is_blank (List.hd "" (split_where is_operator line))).

(** ** Reading a run *)

Definition start (f : filesystem) : state :=
  {| fs := f; log := []; stdout := [] |}.

Definition empty_fs : filesystem := {| dirs := ∅; files := ∅ |}.

(** The command lines passed to [os.system], in order. *)
Definition system_commands (evs : list event) : list string :=
  omap (fun ev => match ev_call ev with
                  | os_system cmd => Some cmd
                  | _ => None
                  end) evs.


(** A call of the world returns. *)
Definition returns (w : World) (c : extern) (l : list event) : Prop :=
  exists x, w c l = Return x.

(** A model with three distinguishable outputs. *)
Definition toy_scores : Tensor :=
  {| tensor_shape := [1; 521]; tensor_dtype := DType.float32; tensor_values := [1] |}.
Definition toy_embeddings : Tensor :=
  {| tensor_shape := [1; 1024]; tensor_dtype := DType.float32; tensor_values := [2] |}.
Definition toy_spectrogram : Tensor :=
  {| tensor_shape := [96; 64]; tensor_dtype := DType.float32; tensor_values := [3] |}.

Definition toy_model : HubModel :=
  {| hub_call := fun waveform => Return [toy_scores; toy_embeddings; toy_spectrogram] |}.

(** The world in which every call returns. *)
Definition obliging (layer : KerasLayer) : World :=
  fun c _ =>
    match c with
    | os_makedirs _ _ => Return tt
    | hub_load _ => Return toy_model
    | hub_KerasLayer _ _ => Return layer
    | tf_saved_model_save _ _ _ => Return tt
    | tf_saved_model_load _ => Return {| signatures := "_SignatureMap({'serving_default': ...})" |}
    | tfjs_convert_tf_saved_model _ _ => Return tt
    | open_ _ _ => Return tt
    | json_dump _ _ _ => Return tt
    | os_system _ => Return 0
    end.

Definition load_error : exn :=
  Exception "OSError" "SavedModel file does not exist".

(** The world in which loading a model fails and everything else returns. *)
Definition unloadable : World :=
  fun c l =>
    match c with
    | hub_load _ => Raise load_error
    | hub_KerasLayer _ _ => Raise load_error
    | tf_saved_model_load _ => Raise load_error
    | _ => obliging {| variables := [] |} c l
    end.

Definition no_process : process := {| sys_argv := []; os_environ := [] |}.

(** A layer with two variables. *)
Definition two_variables : KerasLayer :=
  {| variables :=
       [ Var.Build "layer1/conv/kernel:0" (TensorShape.Build [3; 3; 1; 32]) DType.float32;
         Var.Build "logits/bias:0" (TensorShape.Build [521]) DType.float32 ] |}.

(** A waveform of three samples: 0.0, 1.0 and -1.0. *)
Definition three_samples : Tensor :=
  {| tensor_shape := [3]; tensor_dtype := DType.float32;
     tensor_values := [0; 1065353216; 3212836864] |}.

(** * Vocabulary of the properties *)

(** The calls a run made, given the states before and after it. *)
Definition events_during (st st' : state) : list event :=
  drop (length (log st)) (log st').

(** The exceptions raised by the calls a run made. *)
Definition raised_during (st st' : state) (e : exn) : Prop :=
  Some e ∈ (ev_raised <$> events_during st st').




(** The tree of [convert_yamnet.py]: the base directory and its two
    subdirectories. *)
Definition fixed_tree : gset (list string) :=
  {[ ["yamnet_conversion"];
     ["yamnet_conversion"; "yamnet_tf"];
     ["yamnet_conversion"; "yamnet_tfjs"] ]}.

(** The directory [reconvert_to_tfjs.py] makes. *)
Definition reconverted_dir : list string :=
  ["yamnet_conversion"; "yamnet_tfjs_reconverted"].

(** The descriptor file of [extract_weights.py]. *)
Definition descriptor_file : list string :=
  ["yamnet_conversion"; "yamnet_tf"; "weight_specs.json"].



(** The calls of a complete run, in order, for the model the hub returned:
    make the directories, fetch, persist the wrapped model, load it back,
    convert. *)
Definition convert_yamnet_steps (yamnet_model : HubModel) : list extern :=
  let wrapped_model := YAMNetWrapper.__init__ yamnet_model in
  [ os_makedirs "yamnet_conversion" true;
    os_makedirs "yamnet_conversion/yamnet_tf" true;
    os_makedirs "yamnet_conversion/yamnet_tfjs" true;
    hub_load "https://tfhub.dev/google/yamnet/1";
    tf_saved_model_save wrapped_model "yamnet_conversion/yamnet_tf"
      (YAMNetWrapper.call wrapped_model);
    tf_saved_model_load "yamnet_conversion/yamnet_tf";
    tfjs_convert_tf_saved_model "yamnet_conversion/yamnet_tf"
      "yamnet_conversion/yamnet_tfjs" ].

(** The signature of [call]: one float32 tensor of rank 1, of any length. *)
Definition waveform_spec : TensorSpec :=
  {| spec_shape := [None]; spec_dtype := DType.float32 |}.

(** The paths, URLs and command lines a call names. *)
Definition strings_of (c : extern) : list string :=
  match c with
  | os_makedirs name _ => [name]
  | hub_load handle => [handle]
  | hub_KerasLayer handle _ => [handle]
  | tf_saved_model_save _ export_dir _ => [export_dir]
  | tf_saved_model_load export_dir => [export_dir]
  | tfjs_convert_tf_saved_model saved_model_dir output_dir => [saved_model_dir; output_dir]
  | open_ file _ => [file]
  | json_dump _ fp _ => [file_name fp]
  | os_system cmd => [cmd]
  end.

(** The string constants of the three scripts. *)
Definition hard_coded : list string :=
  [ "yamnet_conversion";
    "yamnet_conversion/yamnet_tf";
    "yamnet_conversion/yamnet_tfjs";
    "https://tfhub.dev/google/yamnet/1";
    "./yamnet_conversion/yamnet_tf/weight_specs.json";
    "./yamnet_conversion/yamnet_tf";
    "./yamnet_conversion/yamnet_tfjs_reconverted";
    "tensorflowjs_converter --input_format=tf_saved_model --output_format=tfjs_graph_model --signature_name=serving_default --saved_model_tags=serve ./yamnet_conversion/yamnet_tf ./yamnet_conversion/yamnet_tfjs_reconverted" ].

(** A script whose calls name hard-coded strings only. *)
Definition uses_only_constants (m : M unit) : Prop :=
  forall p w st ev s,
    ev ∈ events_during st (m p w st).1 ->
    s ∈ strings_of (ev_call ev) ->
    s ∈ hard_coded.

(** A script that does read its command line, for comparison. *)
Definition echo_argv : M unit :=
  p ← getprocess;
  print (String.concat " " (sys_argv p)).

(** ** Worlds and vocabulary for the error paths *)






Definition interrupt : exn := BaseException "KeyboardInterrupt" "".

(** The world in which the user interrupts every download and load. *)
Definition interrupted : World :=
  fun c l =>
    match c with
    | hub_load _ => Raise interrupt
    | hub_KerasLayer _ _ => Raise interrupt
    | tf_saved_model_load _ => Raise interrupt
    | _ => obliging two_variables c l
    end.

Definition permission_denied : exn :=
  Exception "PermissionError" "[Errno 13] Permission denied".

(** The world in which no directory can be made. *)
Definition read_only : World :=
  fun c l =>
    match c with
    | os_makedirs _ _ => Raise permission_denied
    | _ => obliging two_variables c l
    end.

(** A model that yields two values instead of three. *)
Definition two_outputs : HubModel :=
  {| hub_call := fun waveform => Return [toy_scores; toy_embeddings] |}.

(** A waveform of the wrong rank. *)
Definition stereo : Tensor :=
  {| tensor_shape := [2; 3]; tensor_dtype := DType.float32;
     tensor_values := [0; 0; 0; 0; 0; 0] |}.

(** The lines a run printed, given the states before and after it. *)
Definition printed_during (st st' : state) : list string :=
  drop (length (stdout st)) (stdout st').

(** A function out of which every exception that is not an [Exception]
    propagates. *)
Definition lets_through (f : M unit) : Prop :=
  forall p w st e,
    raised_during st (f p w st).1 e ->
    isinstance_Exception e = false ->
    (f p w st).2 = Raise e.

(** * Properties *)

(** Unfold the monad, leaving the world's answers to case on. *)
Ltac step_script :=
  cbv beta iota zeta delta
    [mbind mret M_bind M_ret bind ret raise perform print with_open
     try_except_Exception];
  cbn [fs log stdout fst snd].

(** Continue after a world answer has been substituted. *)
Ltac next := cbv beta iota; cbn [fs log stdout fst snd].

Lemma append_weight_specs_map (acc : list json) (vars : list Var.t) :
  append_weight_specs acc vars = acc ++ map weight_spec vars.
Proof.
  revert acc. induction vars as [|v vars IH]; intros acc; simpl.
  - by rewrite app_nil_r.
  - rewrite IH. by rewrite <- app_assoc.
Qed.

(** ** extract_weight_specs *)





(** ** Error handling *)

(** Cut the log of a run down to the calls the run made. *)
Ltac during :=
  unfold raised_during, events_during; cbn [fs log stdout fst snd];
  rewrite <- ?app_assoc; rewrite ?drop_app_length;
  cbn [app fmap list_fmap ev_raised].

Ltac which_raised H :=
  repeat (apply elem_of_cons in H as [H|H]; [try discriminate H|]);
  try (apply elem_of_nil in H; destruct H).

Ltac case_caught :=
  match goal with
  | |- context [if isinstance_Exception ?e then _ else _] =>
      destruct (isinstance_Exception e) eqn:?; next
  end.

Ltac case_world w :=
  match goal with
  | |- context [w ?c ?l] => destruct (w c l) eqn:?; next
  end.





(** ** reconvert_to_tfjs: the converter command *)










(** C3: when the saved model loads, [reconvert_to_tfjs] runs exactly one
    command, and it is the converter followed by the four fixed flags
    --input_format=tf_saved_model, --output_format=tfjs_graph_model,
    --signature_name=serving_default and --saved_model_tags=serve, then the
    input path, then the output path. *)
Theorem reconvert_to_tfjs_converter_command
    (saved_model_path tfjs_output_path : string) (p : process) (w : World) (st : state) :
  returns w (tf_saved_model_load saved_model_path) (log st) ->
  system_commands
    (events_during st (reconvert_to_tfjs saved_model_path tfjs_output_path p w st).1)
  = [ String.concat " "
        [ "tensorflowjs_converter";
          "--input_format=tf_saved_model";
          "--output_format=tfjs_graph_model";
          "--signature_name=serving_default";
          "--saved_model_tags=serve";
          saved_model_path;
          tfjs_output_path ] ].
Proof.
  intros [model Hload]. unfold reconvert_to_tfjs. step_script.
  rewrite Hload. next. case_world w; try case_caught.
  all: during; reflexivity.
Qed.

Lemma reconvert_to_tfjs_converter_command_witness :
  system_commands
    (events_during (start empty_fs)
       (reconvert_to_tfjs SAVED_MODEL_PATH TFJS_OUTPUT_PATH no_process
          (obliging two_variables) (start empty_fs)).1)
  = [ String.concat " "
        [ "tensorflowjs_converter";
          "--input_format=tf_saved_model";
          "--output_format=tfjs_graph_model";
          "--signature_name=serving_default";
          "--saved_model_tags=serve";
          SAVED_MODEL_PATH;
          TFJS_OUTPUT_PATH ] ].
Proof.
  apply (reconvert_to_tfjs_converter_command SAVED_MODEL_PATH TFJS_OUTPUT_PATH
           no_process (obliging two_variables) (start empty_fs)).
  eexists. reflexivity.
Defined.


Lemma string_app_assoc (a b c : string) : (a +:+ b) +:+ c = a +:+ (b +:+ c).
Proof.
  induction a as [|d a IH]; [reflexivity|].
  change (String d ((a +:+ b) +:+ c) = String d (a +:+ (b +:+ c))).
  by rewrite IH.
Qed.

(** X13: joining with spaces forgets where an argument ends: a path with a
    space in it gives the very command line of two separate arguments. *)
Lemma join_forgets_boundaries (a b tfjs_output_path : string) :
  String.concat " " (command (a +:+ " " +:+ b) tfjs_output_path)
  = String.concat " "
      [ "tensorflowjs_converter";
        "--input_format=tf_saved_model";
        "--output_format=tfjs_graph_model";
        "--signature_name=serving_default";
        "--saved_model_tags=serve";
        a; b; tfjs_output_path ].
Proof.
  unfold command. cbn [String.concat].
  by rewrite !string_app_assoc.
Qed.



(** What the converter gets for a path with a space in it. *)
Example sh_argv_path_with_space :
  sh_argv (String.concat " " (command "my models/yamnet_tf" "out"))
  = [ "tensorflowjs_converter";
      "--input_format=tf_saved_model";
      "--output_format=tfjs_graph_model";
      "--signature_name=serving_default";
      "--saved_model_tags=serve";
      "my"; "models/yamnet_tf"; "out" ].
Proof. reflexivity. Qed.

(** What the converter gets for a path with a semicolon in it. *)
Example sh_argv_path_with_semicolon :
  sh_argv (String.concat " " (command "a;b" "out"))
  = [ "tensorflowjs_converter";
      "--input_format=tf_saved_model";
      "--output_format=tfjs_graph_model";
      "--signature_name=serving_default";
      "--saved_model_tags=serve";
      "a" ].
Proof. reflexivity. Qed.

(** ** What the scripts put on the file system *)

Lemma makedirs_targets_base :
  makedirs_targets base_dir = [ ["yamnet_conversion"] ].
Proof. reflexivity. Qed.

Lemma makedirs_targets_tf :
  makedirs_targets (base_dir +:+ "/yamnet_tf")
  = [ ["yamnet_conversion"]; ["yamnet_conversion"; "yamnet_tf"] ].
Proof. reflexivity. Qed.

Lemma makedirs_targets_tfjs :
  makedirs_targets (base_dir +:+ "/yamnet_tfjs")
  = [ ["yamnet_conversion"]; ["yamnet_conversion"; "yamnet_tfjs"] ].
Proof. reflexivity. Qed.

Lemma makedirs_targets_reconverted :
  makedirs_targets TFJS_OUTPUT_PATH = [ ["yamnet_conversion"]; reconverted_dir ].
Proof. reflexivity. Qed.

Lemma normpath_descriptor : normpath OUTPUT_JSON_PATH = descriptor_file.
Proof. reflexivity. Qed.

Ltac on_disk :=
  cbn [fs_effect dirs files file_name String.eqb Ascii.eqb Bool.eqb];
  rewrite ?makedirs_targets_base, ?makedirs_targets_tf, ?makedirs_targets_tfjs,
    ?makedirs_targets_reconverted, ?normpath_descriptor.




Example convert_yamnet_makes_tree :
  dirs (fs (convert_yamnet no_process (obliging two_variables) (start empty_fs)).1)
  = fixed_tree.
Proof.
  unfold convert_yamnet. step_script. cbn [obliging]. next. on_disk.
  cbn [start empty_fs fs dirs]. unfold fixed_tree. set_solver.
Qed.

(** ** convert_yamnet.py: the order of the steps *)

(** C5: the calls of [convert_yamnet.py] are always an initial part of the
    sequence fetch, persist the wrapper of the fetched model, load, convert
    (after the three directories); only the last call made can have raised;
    a converter call is preceded by a save that returned, into the
    directory the converter reads; and a run that ends normally made the
    whole sequence. *)
Theorem convert_yamnet_order (p : process) (w : World) (st : state) :
  (exists yamnet_model,
     (ev_call <$> events_during st (convert_yamnet p w st).1)
       `prefix_of` convert_yamnet_steps yamnet_model
     /\ ((4 < length (events_during st (convert_yamnet p w st).1))%nat ->
         exists l, w (hub_load "https://tfhub.dev/google/yamnet/1") l
                   = Return yamnet_model))
  /\ (forall (i : nat) ev,
        events_during st (convert_yamnet p w st).1 !! i = Some ev ->
        (S i < length (events_during st (convert_yamnet p w st).1))%nat ->
        ev_raised ev = None)
  /\ (forall (i : nat) ev saved_model_dir output_dir,
        events_during st (convert_yamnet p w st).1 !! i = Some ev ->
        ev_call ev = tfjs_convert_tf_saved_model saved_model_dir output_dir ->
        exists (j : nat) obj sigs,
          (j < i)%nat
          /\ events_during st (convert_yamnet p w st).1 !! j
             = Some {| ev_call := tf_saved_model_save obj saved_model_dir sigs;
                       ev_raised := None |})
  /\ ((convert_yamnet p w st).2 = Return tt ->
      exists yamnet_model,
        events_during st (convert_yamnet p w st).1
        = (fun c => {| ev_call := c; ev_raised := None |})
            <$> convert_yamnet_steps yamnet_model).
Proof.
  unfold convert_yamnet. step_script.
  repeat case_world w; during.
  all: split; [|repeat split].
  all: try (intros H; discriminate H).
  all: try (eexists; reflexivity).
  all: try (exists toy_model; split;
            [eexists; reflexivity | intros Hlen; cbn in Hlen; lia]).
  all: try (eexists; split;
            [eexists; reflexivity | intros Hlen; cbn in Hlen; lia]).
  all: try (eexists; split;
            [eexists; reflexivity | intros _; eexists; eassumption]).
  all: try (intros i ev Hi Hlen; cbn in Hlen;
            repeat (destruct i as [|i]; [injection Hi as <-; first [reflexivity | lia]|]);
            cbn in Hlen; lia).
  all: intros i ev sdir odir Hi Hc;
       repeat (destruct i as [|i];
               [injection Hi as <-; first [discriminate Hc | idtac]|]);
       try (cbn in Hi; discriminate Hi).
  all: injection Hc as <- <-; exists 4%nat; eexists; eexists; split; [lia | reflexivity].
Qed.

Lemma convert_yamnet_order_witness :
  exists yamnet_model,
    events_during (start empty_fs)
      (convert_yamnet no_process (obliging two_variables) (start empty_fs)).1
    = (fun c => {| ev_call := c; ev_raised := None |})
        <$> convert_yamnet_steps yamnet_model.
Proof.
  apply (proj2 (proj2 (proj2 (convert_yamnet_order no_process
                                (obliging two_variables) (start empty_fs))))).
  reflexivity.
Defined.

(** ** The wrapper's signature and result *)

Lemma DType_eqb_eq (a b : DType.t) : DType.eqb a b = true <-> a = b.
Proof.
  destruct a as [a], b as [b]. unfold DType.eqb. cbn [DType.name].
  rewrite String.eqb_eq. split; [by intros -> | by intros [= ->]].
Qed.

Lemma waveform_spec_compatible (x : Tensor) :
  is_compatible_with waveform_spec x = true
  <-> exists n, tensor_shape x = [n] /\ tensor_dtype x = DType.float32.
Proof.
  unfold is_compatible_with, waveform_spec. cbn [spec_shape spec_dtype].
  rewrite andb_true_iff, DType_eqb_eq. split.
  - intros [Hs Hd]. destruct (tensor_shape x) as [|n [|m shape]]; try discriminate Hs.
    exists n. by split.
  - intros [n [-> Hd]]. by split.
Qed.

(** C6: [call] carries the one-element input signature: a single tensor of
    rank 1, of any length, with element type float32.  A call is accepted
    exactly when it passes one such tensor, and the signature handed to
    [tf.saved_model.save] is this [call] of the saved object and no
    other. *)
Theorem call_input_signature (self : YAMNetWrapper.t) :
  input_signature (YAMNetWrapper.call self)
  = [ {| spec_shape := [None]; spec_dtype := DType.float32 |} ]
  /\ (forall args : list Tensor,
        signature_accepts (input_signature (YAMNetWrapper.call self)) args = true
        <-> exists x n,
              args = [x] /\ tensor_shape x = [n] /\ tensor_dtype x = DType.float32)
  /\ (forall p w st ev obj export_dir sigs,
        ev ∈ events_during st (convert_yamnet p w st).1 ->
        ev_call ev = tf_saved_model_save obj export_dir sigs ->
        sigs = YAMNetWrapper.call obj).
Proof.
  split; [reflexivity|split].
  - intros args. cbn [YAMNetWrapper.call input_signature signature_accepts].
    fold waveform_spec. split.
    + destruct args as [|x [|y args]]; try discriminate 1.
      * rewrite andb_true_r. intros H. apply waveform_spec_compatible in H as [n [Hs Hd]].
        by exists x, n.
      * rewrite andb_false_r. discriminate 1.
    + intros (x & n & -> & Hs & Hd). rewrite andb_true_r.
      apply waveform_spec_compatible. by exists n.
  - intros p w st ev obj export_dir sigs. unfold convert_yamnet. step_script.
    repeat case_world w; during; intros Hin Hc.
    all: repeat (apply elem_of_cons in Hin as [->|Hin];
                 [first [discriminate Hc | injection Hc as <- <- <-; reflexivity]|]).
    all: apply elem_of_nil in Hin; destruct Hin.
Qed.

(** ** No use of the command line or the environment *)

Ltac constant_used Hev Hs :=
  repeat (apply elem_of_cons in Hev as [->|Hev];
          [cbn [ev_call strings_of file_name] in Hs;
           repeat (apply elem_of_cons in Hs as [->|Hs];
                   [apply list_elem_of_In; vm_compute; tauto|]);
           apply elem_of_nil in Hs; destruct Hs|]);
  apply elem_of_nil in Hev; destruct Hev.

(** C7: two runs of a script that differ only in [sys.argv] and
    [os.environ] make the same calls with the same arguments, print the same
    lines and end the same way; and whatever the process and the world, the
    paths, the model URL and the command line of every call are hard-coded
    constants. *)
Theorem scripts_ignore_argv_and_environ (p1 p2 : process) (w : World) (st : state) :
  (convert_yamnet p1 w st = convert_yamnet p2 w st
   /\ extract_weights_main p1 w st = extract_weights_main p2 w st
   /\ reconvert_to_tfjs_main p1 w st = reconvert_to_tfjs_main p2 w st)
  /\ (uses_only_constants convert_yamnet
      /\ uses_only_constants extract_weights_main
      /\ uses_only_constants reconvert_to_tfjs_main).
Proof.
  split; [repeat split; reflexivity|].
  unfold uses_only_constants. repeat split.
  - intros p w' st' ev s. unfold convert_yamnet. step_script.
    repeat case_world w'; during; intros Hev Hs; constant_used Hev Hs.
  - intros p w' st' ev s. unfold extract_weights_main, extract_weight_specs.
    step_script.
    repeat case_world w'; try case_caught; during; intros Hev Hs; constant_used Hev Hs.
  - intros p w' st' ev s. unfold reconvert_to_tfjs_main, reconvert_to_tfjs.
    step_script.
    repeat case_world w'; try case_caught; during; intros Hev Hs; constant_used Hev Hs.
Qed.

(** A script that reads [sys.argv] does tell two processes apart. *)
Example echo_argv_depends_on_argv :
  echo_argv {| sys_argv := ["a"]; os_environ := [] |} (obliging two_variables)
    (start empty_fs)
  <> echo_argv {| sys_argv := ["b"]; os_environ := [] |} (obliging two_variables)
       (start empty_fs).
Proof.
  intros H. apply (f_equal (fun r => stdout r.1)) in H. discriminate H.
Qed.

(** C10: when the model yields the three values scores, embeddings and
    spectrogram, [call] returns the scores and nothing else: its body returns
    them, the decorated function returns nothing but them, and a model that
    differs only in embeddings and spectrogram gives the same result. *)
Theorem call_returns_only_scores
    (self : YAMNetWrapper.t) (waveform scores embeddings specs : Tensor) :
  hub_call (YAMNetWrapper.yamnet self) waveform = Return [scores; embeddings; specs] ->
  YAMNetWrapper.call_body self waveform = Return scores
  /\ (is_compatible_with waveform_spec waveform = true ->
      invoke (YAMNetWrapper.call self) [waveform] = Return scores)
  /\ (forall r, invoke (YAMNetWrapper.call self) [waveform] = Return r -> r = scores)
  /\ (forall (other : YAMNetWrapper.t) (embeddings' specs' : Tensor),
        hub_call (YAMNetWrapper.yamnet other) waveform
        = Return [scores; embeddings'; specs'] ->
        invoke (YAMNetWrapper.call other) [waveform]
        = invoke (YAMNetWrapper.call self) [waveform]).
Proof.
  intros Hmodel.
  assert (Hbody : YAMNetWrapper.call_body self waveform = Return scores).
  { unfold YAMNetWrapper.call_body. by rewrite Hmodel. }
  assert (Hinvoke : invoke (YAMNetWrapper.call self) [waveform]
                    = if is_compatible_with waveform_spec waveform
                      then Return scores
                      else Raise (Exception "ValueError"
                                    "Python inputs incompatible with input_signature")).
  { unfold invoke.
    cbn [YAMNetWrapper.call input_signature python_function signature_accepts].
    fold waveform_spec. rewrite andb_true_r, Hbody. reflexivity. }
  split; [exact Hbody|split; [|split]].
  - intros Hc. by rewrite Hinvoke, Hc.
  - intros r. rewrite Hinvoke.
    destruct (is_compatible_with waveform_spec waveform); [|discriminate 1].
    by intros [= <-].
  - intros other embeddings' specs' Hother. rewrite Hinvoke.
    unfold invoke.
    cbn [YAMNetWrapper.call input_signature python_function signature_accepts].
    fold waveform_spec. rewrite andb_true_r.
    unfold YAMNetWrapper.call_body. by rewrite Hother.
Qed.

Lemma call_returns_only_scores_witness :
  YAMNetWrapper.call_body (YAMNetWrapper.__init__ toy_model) three_samples
  = Return toy_scores
  /\ invoke (YAMNetWrapper.call (YAMNetWrapper.__init__ toy_model)) [three_samples]
     = Return toy_scores.
Proof.
  destruct (call_returns_only_scores (YAMNetWrapper.__init__ toy_model)
              three_samples toy_scores toy_embeddings toy_spectrogram eq_refl)
    as (Hbody & Hinvoke & _).
  split; [exact Hbody | apply Hinvoke; reflexivity].
Defined.

(** * Further properties of the scripts *)

(** ** extract_weight_specs: the error paths after the load *)





(** ** extract_weight_specs: what the success line tells, and the frame *)

Lemma no_line_added (l : list string) (x : string) : l <> l ++ [x].
Proof.
  intros H. apply (f_equal length) in H. rewrite length_app in H.
  cbn [length] in H. lia.
Qed.

(** X3: the success line is truthful.  When a run of [extract_weight_specs]
    printed "Weight specs saved to" and the path, the loader did return a
    layer and the file at the output path holds the complete descriptor of
    that layer's variables. *)
Theorem extract_weight_specs_success_line
    (model_url output_json_path : string) (p : process) (w : World) (st : state) :
  stdout (extract_weight_specs model_url output_json_path p w st).1
  = stdout st ++ ["✅ Weight specs saved to: " +:+ output_json_path] ->
  exists yamnet_model,
    w (hub_KerasLayer model_url false) (log st) = Return yamnet_model
    /\ files (fs (extract_weight_specs model_url output_json_path p w st).1)
         !! normpath output_json_path
       = Some [(JList (map weight_spec (variables yamnet_model)), 4)]
    /\ (extract_weight_specs model_url output_json_path p w st).2 = Return tt.
Proof.
  unfold extract_weight_specs. step_script.
  repeat case_world w; try case_caught; intros Hout.
  all: try (apply app_inv_head in Hout; discriminate Hout).
  all: try (by apply no_line_added in Hout).
  eexists. split; [reflexivity|]. split; [|reflexivity].
  cbn [fs_effect files file_name String.eqb Ascii.eqb Bool.eqb].
  rewrite lookup_insert_eq. rewrite lookup_insert_eq.
  by rewrite append_weight_specs_map.
Qed.

Lemma extract_weight_specs_success_line_witness :
  exists yamnet_model,
    obliging two_variables (hub_KerasLayer MODEL_URL false) (log (start empty_fs))
    = Return yamnet_model
    /\ files (fs (extract_weight_specs MODEL_URL OUTPUT_JSON_PATH no_process
                    (obliging two_variables) (start empty_fs)).1)
         !! normpath OUTPUT_JSON_PATH
       = Some [(JList (map weight_spec (variables yamnet_model)), 4)]
    /\ (extract_weight_specs MODEL_URL OUTPUT_JSON_PATH no_process
          (obliging two_variables) (start empty_fs)).2 = Return tt.
Proof.
  apply (extract_weight_specs_success_line MODEL_URL OUTPUT_JSON_PATH no_process
           (obliging two_variables) (start empty_fs)).
  reflexivity.
Defined.


(** X11: [except Exception] does not catch what is not an [Exception]: a
    [KeyboardInterrupt] raised by any call inside [extract_weight_specs] or
    [reconvert_to_tfjs] propagates to the caller, and [extract_weight_specs]
    then prints nothing at all. *)
Theorem base_exceptions_pass_through :
  (forall model_url output_json_path,
     lets_through (extract_weight_specs model_url output_json_path))
  /\ (forall saved_model_path tfjs_output_path,
        lets_through (reconvert_to_tfjs saved_model_path tfjs_output_path))
  /\ (forall model_url output_json_path p w st e,
        raised_during st (extract_weight_specs model_url output_json_path p w st).1 e ->
        isinstance_Exception e = false ->
        stdout (extract_weight_specs model_url output_json_path p w st).1 = stdout st).
Proof.
  split; [|split].
  - intros model_url output_json_path p w st e.
    unfold extract_weight_specs. step_script.
    repeat case_world w; try case_caught; during; intros Hin He; which_raised Hin.
    all: injection Hin as ->; first [reflexivity | congruence].
  - intros saved_model_path tfjs_output_path p w st e.
    unfold reconvert_to_tfjs. step_script.
    repeat case_world w; try case_caught; during; intros Hin He; which_raised Hin.
    all: injection Hin as ->; first [reflexivity | congruence].
  - intros model_url output_json_path p w st e.
    unfold extract_weight_specs. step_script.
    repeat case_world w; try case_caught; during; intros Hin He; which_raised Hin.
    all: injection Hin as ->; first [reflexivity | congruence].
Qed.

Lemma base_exceptions_pass_through_witness :
  (extract_weight_specs MODEL_URL OUTPUT_JSON_PATH no_process interrupted
     (start empty_fs)).2 = Raise interrupt.
Proof.
  apply (proj1 base_exceptions_pass_through MODEL_URL OUTPUT_JSON_PATH no_process
           interrupted (start empty_fs) interrupt).
  - apply list_elem_of_here.
  - reflexivity.
Defined.

(** ** reconvert_to_tfjs: exit status, failed load, failed makedirs *)





(** X7: [os.makedirs] in the main block of [reconvert_to_tfjs.py] stands
    outside the [try]: when it raises, the script ends in that exception at
    once, with nothing printed, no model loaded and no command run. *)
Theorem reconvert_to_tfjs_main_makedirs_error (p : process) (w : World) (st : state)
    (e : exn) :
  w (os_makedirs TFJS_OUTPUT_PATH true) (log st) = Raise e ->
  reconvert_to_tfjs_main p w st
  = ({| fs := fs st;
        log := log st ++ [ {| ev_call := os_makedirs TFJS_OUTPUT_PATH true;
                              ev_raised := Some e |} ];
        stdout := stdout st |},
     Raise e).
Proof.
  intros Hmk. unfold reconvert_to_tfjs_main. step_script.
  rewrite Hmk. next. reflexivity.
Qed.

Lemma reconvert_to_tfjs_main_makedirs_error_witness :
  reconvert_to_tfjs_main no_process read_only (start empty_fs)
  = ({| fs := empty_fs;
        log := [ {| ev_call := os_makedirs TFJS_OUTPUT_PATH true;
                    ev_raised := Some permission_denied |} ];
        stdout := [] |},
     Raise permission_denied).
Proof.
  apply (reconvert_to_tfjs_main_makedirs_error no_process read_only (start empty_fs)
           permission_denied).
  reflexivity.
Defined.


(** ** convert_yamnet.py: what a run leaves behind *)

(** X8: the directories are made before the download.  When the three
    [os.makedirs] calls return and the download raises, the script ends in
    that exception after four calls, nothing is saved or converted, and the
    tree of the base directory and its two subdirectories stays behind. *)
Theorem convert_yamnet_download_error (p : process) (w : World) (st : state) (e : exn) :
  (forall name l, returns w (os_makedirs name true) l) ->
  (forall l, w (hub_load "https://tfhub.dev/google/yamnet/1") l = Raise e) ->
  (convert_yamnet p w st).2 = Raise e
  /\ dirs (fs (convert_yamnet p w st).1) = dirs (fs st) ∪ fixed_tree
  /\ files (fs (convert_yamnet p w st).1) = files (fs st)
  /\ ev_call <$> events_during st (convert_yamnet p w st).1
     = [ os_makedirs "yamnet_conversion" true;
         os_makedirs "yamnet_conversion/yamnet_tf" true;
         os_makedirs "yamnet_conversion/yamnet_tfjs" true;
         hub_load "https://tfhub.dev/google/yamnet/1" ].
Proof.
  intros Hmk Hhub. unfold convert_yamnet. step_script.
  repeat match goal with
         | |- context [w (os_makedirs ?n ?b) ?l] =>
             destruct (Hmk n l) as [[] ->]; next
         end.
  rewrite Hhub. next. during. on_disk. unfold fixed_tree.
  repeat split; [set_solver].
Qed.

Lemma convert_yamnet_download_error_witness :
  (convert_yamnet no_process unloadable (start empty_fs)).2 = Raise load_error
  /\ dirs (fs (convert_yamnet no_process unloadable (start empty_fs)).1)
     = dirs (fs (start empty_fs)) ∪ fixed_tree
  /\ files (fs (convert_yamnet no_process unloadable (start empty_fs)).1)
     = files (fs (start empty_fs))
  /\ ev_call <$> events_during (start empty_fs)
                   (convert_yamnet no_process unloadable (start empty_fs)).1
     = [ os_makedirs "yamnet_conversion" true;
         os_makedirs "yamnet_conversion/yamnet_tf" true;
         os_makedirs "yamnet_conversion/yamnet_tfjs" true;
         hub_load "https://tfhub.dev/google/yamnet/1" ].
Proof.
  apply (convert_yamnet_download_error no_process unloadable (start empty_fs)
           load_error).
  - intros name l. exists tt. reflexivity.
  - intros l. reflexivity.
Defined.



(** X18: the completion line is truthful.  A run of [convert_yamnet.py]
    that ends in an exception has not printed "Conversion complete!". *)
Theorem convert_yamnet_completion_line (p : process) (w : World) (st : state) (e : exn) :
  (convert_yamnet p w st).2 = Raise e ->
  "Conversion complete! Model is in the yamnet_conversion/yamnet_tfjs directory"
  ∉ printed_during st (convert_yamnet p w st).1.
Proof.
  unfold convert_yamnet, printed_during. step_script.
  repeat case_world w; intros Hend; try discriminate Hend.
  all: rewrite <- ?app_assoc; rewrite ?drop_app_length; cbn [app].
  all: try (rewrite <- (app_nil_r (stdout st)) at 2; rewrite drop_app_length).
  all: intros Hin.
  all: repeat (apply elem_of_cons in Hin as [Hin|Hin]; [discriminate Hin|]).
  all: apply elem_of_nil in Hin; destruct Hin.
Qed.

Lemma convert_yamnet_completion_line_witness :
  "Conversion complete! Model is in the yamnet_conversion/yamnet_tfjs directory"
  ∉ printed_during (start empty_fs)
      (convert_yamnet no_process unloadable (start empty_fs)).1.
Proof.
  apply (convert_yamnet_completion_line no_process unloadable (start empty_fs)
           load_error).
  reflexivity.
Defined.

(** X16: only [reconvert_to_tfjs.py] goes through the shell: in every
    world, [convert_yamnet.py] and [extract_weights.py] make no [os.system]
    call. *)
Theorem only_reconvert_uses_the_shell (p : process) (w : World) (st : state) :
  system_commands (events_during st (convert_yamnet p w st).1) = []
  /\ system_commands (events_during st (extract_weights_main p w st).1) = [].
Proof.
  split.
  - unfold convert_yamnet. step_script.
    repeat case_world w; during; reflexivity.
  - unfold extract_weights_main, extract_weight_specs. step_script.
    repeat case_world w; try case_caught; during; reflexivity.
Qed.

(** ** YAMNetWrapper.call: rejected inputs and a model of the wrong arity *)

(** X9: a call that does not pass one float32 tensor of rank 1 is refused by
    the input signature, and the refusal does not depend on the wrapped
    model: the model is never consulted. *)
Theorem call_refuses_other_inputs (x : Tensor) :
  (forall n, tensor_shape x <> [n]) \/ tensor_dtype x <> DType.float32 ->
  exists e,
    forall self : YAMNetWrapper.t, invoke (YAMNetWrapper.call self) [x] = Raise e.
Proof.
  intros Hbad.
  assert (Hc : is_compatible_with waveform_spec x = false).
  { destruct (is_compatible_with waveform_spec x) eqn:Hc; [|reflexivity].
    apply waveform_spec_compatible in Hc as [n [Hs Hd]].
    destruct Hbad as [Hbad|Hbad]; [by destruct (Hbad n) | by destruct Hbad]. }
  eexists. intros self. unfold invoke.
  cbn [YAMNetWrapper.call input_signature signature_accepts].
  fold waveform_spec. rewrite Hc. reflexivity.
Qed.

Lemma call_refuses_other_inputs_witness :
  exists e,
    forall self : YAMNetWrapper.t, invoke (YAMNetWrapper.call self) [stereo] = Raise e.
Proof.
  apply (call_refuses_other_inputs stereo).
  left. intros n H. discriminate H.
Defined.

(** X10: [call] unpacks exactly three values.  When the model returns a
    tuple of any other length, the body of [call] raises a ValueError. *)
Theorem call_body_unpacks_three
    (self : YAMNetWrapper.t) (waveform : Tensor) (outputs : list Tensor) :
  hub_call (YAMNetWrapper.yamnet self) waveform = Return outputs ->
  length outputs <> 3%nat ->
  exists msg, YAMNetWrapper.call_body self waveform = Raise (Exception "ValueError" msg).
Proof.
  intros Hmodel Hlen. unfold YAMNetWrapper.call_body. rewrite Hmodel.
  destruct outputs as [|a [|b [|c [|d outputs]]]]; try (eexists; reflexivity).
  by destruct Hlen.
Qed.

Lemma call_body_unpacks_three_witness :
  exists msg,
    YAMNetWrapper.call_body (YAMNetWrapper.__init__ two_outputs) three_samples
    = Raise (Exception "ValueError" msg).
Proof.
  apply (call_body_unpacks_three (YAMNetWrapper.__init__ two_outputs) three_samples
           [toy_scores; toy_embeddings]).
  - reflexivity.
  - intros H. discriminate H.
Defined.

(** ** extract_weights.py: the records determine the variables *)

Lemma map_JInt_inj (l1 l2 : list Z) : map JInt l1 = map JInt l2 -> l1 = l2.
Proof.
  revert l2. induction l1 as [|a l1 IH]; intros [|b l2] H; try discriminate H.
  - reflexivity.
  - injection H as -> H. by rewrite (IH l2 H).
Qed.

(** X14: the descriptor loses nothing of what the loader reported: two
    lists of variables with the same records have the same names, shapes and
    dtype names, in the same order. *)
Theorem weight_specs_determine_variables (vars1 vars2 : list Var.t) :
  append_weight_specs [] vars1 = append_weight_specs [] vars2 ->
  vars1 = vars2.
Proof.
  rewrite !append_weight_specs_map. cbn [app].
  revert vars2. induction vars1 as [|v1 vars1 IH]; intros [|v2 vars2] H;
    try discriminate H.
  - reflexivity.
  - injection H as Hname Hshape Hdtype Hrest.
    apply map_JInt_inj in Hshape.
    destruct v1 as [n1 [s1] [d1]], v2 as [n2 [s2] [d2]].
    cbn in Hname, Hshape, Hdtype. subst.
    by rewrite (IH vars2 Hrest).
Qed.

Lemma weight_specs_determine_variables_witness :
  variables two_variables = variables two_variables.
Proof.
  apply (weight_specs_determine_variables (variables two_variables)
           (variables two_variables)).
  reflexivity.
Defined.

(** ** reconvert_to_tfjs: plain paths reach the converter *)

